(** * The [Result] type of [src/result.ts]

    A shallow embedding of the two classes [Ok] and [Err], of the union
    [Result<T, E> = Ok<T, E> | Err<T, E>], of the exported constructors
    [ok] and [err] and of [Result.fromPromise], followed by the properties
    of the behavioural contract.

    Every method call is a computation of the host: it receives the state
    of the host, it may update it (only through the functions it is handed)
    and it either returns a value or throws. *)

From Stdlib Require Import String List Bool Arith Lia.
Import ListNotations.

Local Open Scope string_scope.

Set Implicit Arguments.

(** ** The host: thrown values, completions, computations *)

(** What a [throw] carries: an object built by [new Error(message)], or
    any other value of the host (functions handed to the methods may throw
    what they like). *)
Inductive Thrown (Host : Type) : Type :=
| ErrorObject (message : string)
| HostThrown (h : Host).

Arguments ErrorObject {Host} message.
Arguments HostThrown {Host} h.

(** How a call ends: with a [return] or with a [throw]. *)
Inductive Completion (Host A : Type) : Type :=
| Return (a : A)
| Throw (t : Thrown Host).

Arguments Return {Host A} a.
Arguments Throw {Host A} t.

(** A computation runs in a state of the host and leaves a state behind,
    also when it throws. *)
Definition JS (World Host A : Type) : Type :=
  World -> Completion Host A * World.

Section Computations.
Context {World Host : Type}.

Definition ret {A : Type} (a : A) : JS World Host A :=
  fun w => (Return a, w).

Definition throw {A : Type} (t : Thrown Host) : JS World Host A :=
  fun w => (Throw t, w).

Definition bind {A B : Type}
    (c : JS World Host A) (k : A -> JS World Host B) : JS World Host B :=
  fun w =>
    match c w with
    | (Return a, w') => k a w'
    | (Throw t, w') => (Throw t, w')
    end.

(** [c] run in [w] throws (whatever it throws, whatever state it leaves). *)
Definition raises {A : Type} (c : JS World Host A) (w : World) : Prop :=
  exists t w', c w = (Throw t, w').

(** [c] run in [w] returns [a] and leaves the host as it found it. *)
Definition returns {A : Type} (c : JS World Host A) (w : World) (a : A) : Prop :=
  c w = (Return a, w).
End Computations.

Notation "x <- c ;; k" := (bind c (fun x => k))
  (at level 61, c at next level, right associativity).

(** The string conversion a template literal applies to an interpolated
    value ([`${x}`]).  It is a computation: the conversion of an object
    calls its [toString], and that of a Symbol throws. *)
Class Stringify (World Host A : Type) : Type :=
  ToString : A -> JS World Host string.

(** A string converts to itself. *)
#[export] Instance Stringify_string {World Host : Type} :
  Stringify World Host string := fun s => ret s.

(** ** Strings: [needle] occurs in [hay] *)





(** ** Promises

    A promise is modelled by its outcome: it stays pending for ever, or it
    is fulfilled with a value, or it is rejected with a reason.  When its
    callbacks run is left out. *)
Inductive Promise (T R : Type) : Type :=
| Pending
| Fulfilled (value : T)
| Rejected (reason : R).

Arguments Pending {T R}.
Arguments Fulfilled {T R} value.
Arguments Rejected {T R} reason.

(** Which values of [T] are thenables (promise objects, and any other
    object with a [then] method), and for each of them the promise that
    resolving with it gives: the promise object itself, and for another
    thenable the promise that follows it.  An instance answers [Some] on
    every thenable of [T]. *)
Class Thenable (T R : Type) : Type :=
  as_promise : T -> option (Promise T R).

(** A string is no thenable. *)
#[export] Instance Thenable_string {R : Type} : Thenable string R :=
  fun _ => None.

(** A number is no thenable. *)
#[export] Instance Thenable_nat {R : Type} : Thenable nat R :=
  fun _ => None.

Section PromiseOperations.
Context {T R : Type}.

(** [Promise.resolve(x)]: a promise object is handed back as it is (the
    promise made for any other thenable settles as the thenable does), any
    other value gives a promise fulfilled with it. *)
Definition Promise_resolve {TH : Thenable T R} (x : T) : Promise T R :=
  match as_promise x with
  | Some p => p
  | None => Fulfilled x
  end.

(** [Promise.reject(r)]: a promise rejected with [r], whatever [r] is. *)
Definition Promise_reject (r : R) : Promise T R := Rejected r.

(** [p.then(onFulfilled)] for a callback that returns a value which is no
    promise and does not throw (in this program: a constructor call). *)
Definition Promise_then {U : Type} (onFulfilled : T -> U)
    (p : Promise T R) : Promise U R :=
  match p with
  | Pending => Pending
  | Fulfilled v => Fulfilled (onFulfilled v)
  | Rejected r => Rejected r
  end.

(** [p.catch(onRejected)], for such a callback too. *)
Definition Promise_catch (onRejected : R -> T)
    (p : Promise T R) : Promise T R :=
  match p with
  | Pending => Pending
  | Fulfilled v => Fulfilled v
  | Rejected r => Fulfilled (onRejected r)
  end.
End PromiseOperations.

(** ** The data model *)

(** [type Result<T, E> = Ok<T, E> | Err<T, E>]: an object of class [Ok]
    holds [value], an object of class [Err] holds [error]; both fields are
    [readonly]. *)
Inductive Result (T E : Type) : Type :=
| Ok (value : T)
| Err (error : E).

Arguments Ok {T E} value.
Arguments Err {T E} error.

(** The field [_tag] of the two classes. *)
Definition _tag {T E : Type} (r : Result T E) : string :=
  match r with
  | Ok _ => "Ok"
  | Err _ => "Err"
  end.

(** The object [{ ok: ..., err: ... }] handed to [match]. *)
Module Patterns.
Record t (World Host T E U : Type) : Type := make {
  ok : T -> JS World Host U;
  err : E -> JS World Host U
}.
End Patterns.

(** ** [class Ok<T, E>]: each method, as a function of [this.value] *)
Module Ok.
Section Methods.
Context {World Host T E : Type}.

Definition isOk (value : T) : JS World Host bool := ret true.

Definition isErr (value : T) : JS World Host bool := ret false.

Definition unwrap (value : T) : JS World Host T := ret value.

Definition unwrapOr (value : T) (_default : T) : JS World Host T :=
  ret value.

Definition unwrapErr (value : T) : JS World Host E :=
  throw (ErrorObject "Called unwrapErr on an Ok value").

Definition map {U : Type} (value : T) (fn : T -> JS World Host U) :
    JS World Host (Result U E) :=
  u <- fn value ;; ret (Ok u).

Definition mapErr {F : Type} (value : T) (_fn : E -> JS World Host F) :
    JS World Host (Result T F) :=
  ret (Ok value).

Definition andThen {U : Type} (value : T)
    (fn : T -> JS World Host (Result U E)) : JS World Host (Result U E) :=
  fn value.

Definition match_ {U : Type} (value : T)
    (patterns : Patterns.t World Host T E U) : JS World Host U :=
  Patterns.ok patterns value.

Definition asPromise {TH : Thenable T E} (value : T) :
    JS World Host (Promise T E) :=
  ret (Promise_resolve value).
End Methods.
End Ok.

(** ** [class Err<T, E>]: each method, as a function of [this.error] *)
Module Err.
Section Methods.
Context {World Host T E : Type}.

Definition isOk (error : E) : JS World Host bool := ret false.

Definition isErr (error : E) : JS World Host bool := ret true.

Definition unwrap {S : Stringify World Host E} (error : E) :
    JS World Host T :=
  s <- ToString error ;;
  throw (ErrorObject ("Called unwrap on an Err value: " ++ s)).

Definition unwrapOr (error : E) (defaultValue : T) : JS World Host T :=
  ret defaultValue.

Definition unwrapErr (error : E) : JS World Host E := ret error.

Definition map {U : Type} (error : E) (_fn : T -> JS World Host U) :
    JS World Host (Result U E) :=
  ret (Err error).

Definition mapErr {F : Type} (error : E) (fn : E -> JS World Host F) :
    JS World Host (Result T F) :=
  f <- fn error ;; ret (Err f).

Definition andThen {U : Type} (error : E)
    (_fn : T -> JS World Host (Result U E)) : JS World Host (Result U E) :=
  ret (Err error).

Definition match_ {U : Type} (error : E)
    (patterns : Patterns.t World Host T E U) : JS World Host U :=
  Patterns.err patterns error.

Definition asPromise (error : E) : JS World Host (Promise T E) :=
  ret (Promise_reject error).
End Methods.
End Err.

(** ** The exported constructors *)

Definition ok {T E : Type} (value : T) : Result T E := Ok value.

Definition err {T E : Type} (error : E) : Result T E := Err error.

(** ** A method call on a [Result]: the class of the object decides *)
Section Dispatch.
Context {World Host T E : Type}.
Context {S : Stringify World Host E} {TH : Thenable T E}.

Definition isOk (r : Result T E) : JS World Host bool :=
  match r with
  | Ok value => Ok.isOk value
  | Err error => Err.isOk error
  end.

Definition isErr (r : Result T E) : JS World Host bool :=
  match r with
  | Ok value => Ok.isErr value
  | Err error => Err.isErr error
  end.

Definition unwrap (r : Result T E) : JS World Host T :=
  match r with
  | Ok value => Ok.unwrap value
  | Err error => Err.unwrap error
  end.

Definition unwrapOr (r : Result T E) (d : T) : JS World Host T :=
  match r with
  | Ok value => Ok.unwrapOr value d
  | Err error => Err.unwrapOr error d
  end.

Definition unwrapErr (r : Result T E) : JS World Host E :=
  match r with
  | Ok value => Ok.unwrapErr value
  | Err error => Err.unwrapErr error
  end.

Definition map {U : Type} (r : Result T E) (fn : T -> JS World Host U) :
    JS World Host (Result U E) :=
  match r with
  | Ok value => Ok.map value fn
  | Err error => Err.map error fn
  end.

Definition mapErr {F : Type} (r : Result T E) (fn : E -> JS World Host F) :
    JS World Host (Result T F) :=
  match r with
  | Ok value => Ok.mapErr value fn
  | Err error => Err.mapErr error fn
  end.

Definition andThen {U : Type} (r : Result T E)
    (fn : T -> JS World Host (Result U E)) : JS World Host (Result U E) :=
  match r with
  | Ok value => Ok.andThen value fn
  | Err error => Err.andThen error fn
  end.

Definition match_ {U : Type} (r : Result T E)
    (patterns : Patterns.t World Host T E U) : JS World Host U :=
  match r with
  | Ok value => Ok.match_ value patterns
  | Err error => Err.match_ error patterns
  end.

Definition asPromise (r : Result T E) : JS World Host (Promise T E) :=
  match r with
  | Ok value => Ok.asPromise value
  | Err error => Err.asPromise error
  end.
End Dispatch.

(** ** [namespace Result] *)
Module Result.
Definition fromPromise {World Host T R : Type} (promise : Promise T R) :
    JS World Host (Promise (Result T R) R) :=
  ret (Promise_catch (fun error => Err error)
         (Promise_then (fun value => Ok value) promise)).
End Result.

(** ** The operation set, as data

    One constructor per method of the two classes, indexed by the type of
    what the method returns; [invoke] is the method call. *)
Inductive Call (World Host T E : Type) : Type -> Type :=
| CallIsOk : Call World Host T E bool
| CallIsErr : Call World Host T E bool
| CallUnwrap : Call World Host T E T
| CallUnwrapOr (d : T) : Call World Host T E T
| CallUnwrapErr : Call World Host T E E
| CallMap (U : Type) (fn : T -> JS World Host U) :
    Call World Host T E (Result U E)
| CallMapErr (F : Type) (fn : E -> JS World Host F) :
    Call World Host T E (Result T F)
| CallAndThen (U : Type) (fn : T -> JS World Host (Result U E)) :
    Call World Host T E (Result U E)
| CallMatch (U : Type) (patterns : Patterns.t World Host T E U) :
    Call World Host T E U
| CallAsPromise : Call World Host T E (Promise T E).

Arguments CallIsOk {World Host T E}.
Arguments CallIsErr {World Host T E}.
Arguments CallUnwrap {World Host T E}.
Arguments CallUnwrapOr {World Host T E} d.
Arguments CallUnwrapErr {World Host T E}.
Arguments CallMap {World Host T E U} fn.
Arguments CallMapErr {World Host T E F} fn.
Arguments CallAndThen {World Host T E U} fn.
Arguments CallMatch {World Host T E U} patterns.
Arguments CallAsPromise {World Host T E}.

Section Invoke.
Context {World Host T E : Type}.
Context {S : Stringify World Host E} {TH : Thenable T E}.

Definition invoke {A : Type} (r : Result T E) (c : Call World Host T E A) :
    JS World Host A :=
  match c in Call _ _ _ _ A return JS World Host A with
  | CallIsOk => isOk r
  | CallIsErr => isErr r
  | CallUnwrap => unwrap r
  | CallUnwrapOr d => unwrapOr r d
  | CallUnwrapErr => unwrapErr r
  | CallMap fn => map r fn
  | CallMapErr fn => mapErr r fn
  | CallAndThen fn => andThen r fn
  | CallMatch patterns => match_ r patterns
  | CallAsPromise => asPromise r
  end.

(** The two extractions that ask an object for the field of the other
    class. *)
Definition mismatched {A : Type} (r : Result T E)
    (c : Call World Host T E A) : bool :=
  match r, c with
  | Err _, CallUnwrap => true
  | Ok _, CallUnwrapErr => true
  | _, _ => false
  end.

(** The function that the call hands the field of [r] to, if it hands it
    to one, throws when run on it in [w]. *)
Definition callback_raises {A : Type} (r : Result T E)
    (c : Call World Host T E A) (w : World) : Prop :=
  match r, c with
  | Ok value, CallMap fn => raises (fn value) w
  | Err error, CallMapErr fn => raises (fn error) w
  | Ok value, CallAndThen fn => raises (fn value) w
  | Ok value, CallMatch patterns => raises (Patterns.ok patterns value) w
  | Err error, CallMatch patterns => raises (Patterns.err patterns error) w
  | _, _ => False
  end.

(** The same, with what is thrown and the state the function leaves: the
    function that the call hands the field of [r] to, run on it in [w],
    throws [t] and leaves [w']. *)
Definition callback_throws {A : Type} (r : Result T E)
    (c : Call World Host T E A) (w : World) (t : Thrown Host) (w' : World) :
    Prop :=
  match r, c with
  | Ok value, CallMap fn => fn value w = (Throw t, w')
  | Err error, CallMapErr fn => fn error w = (Throw t, w')
  | Ok value, CallAndThen fn => fn value w = (Throw t, w')
  | Ok value, CallMatch patterns =>
      Patterns.ok patterns value w = (Throw t, w')
  | Err error, CallMatch patterns =>
      Patterns.err patterns error w = (Throw t, w')
  | _, _ => False
  end.
End Invoke.

(** ** Observing the calls of a function

    [spy tag fn] behaves as [fn] and keeps, next to the state of the host,
    a log with one entry per call: what [tag] makes of the argument. *)
Section Spies.
Context {World Host : Type}.

Definition spy {A U L : Type} (tag : A -> L) (fn : A -> JS World Host U) :
    A -> JS (World * list L) Host U :=
  fun a wl =>
    let (c, w') := fn a (fst wl) in
    (c, (w', (snd wl ++ [tag a])%list)).

(** The two handlers of a [match], each under observation, in one log. *)
Definition spy_patterns {T E U : Type}
    (patterns : Patterns.t World Host T E U) :
    Patterns.t (World * list (T + E)) Host T E U :=
  Patterns.make (spy inl (Patterns.ok patterns))
                (spy inr (Patterns.err patterns)).

End Spies.

(** ** A host whose values are strings and promises *)
#[local] Set Warnings "-register-all".
Inductive JsVal : Type :=
| JsString (s : string)
| JsPromise (p : Promise JsVal JsVal).
#[local] Set Warnings "register-all".

#[export] Instance Thenable_JsVal : Thenable JsVal JsVal :=
  fun x =>
    match x with
    | JsString _ => None
    | JsPromise p => Some p
    end.

(** The field of [r] is no thenable (the field of an [Err] is never
    looked at by [Promise.reject]). *)
Definition plain_payload {T E : Type} {TH : Thenable T E} (r : Result T E) :
    bool :=
  match r with
  | Ok value =>
      match as_promise value with
      | Some _ => false
      | None => true
      end
  | Err _ => true
  end.

(** A function with an effect: it counts its calls in the state of the host
    and returns the successor of its argument. *)
Definition counting_succ (n : nat) : JS nat unit nat :=
  fun calls => (Return (S n), S calls).

(** A function that does nothing but throw. *)
Definition always_throws {A U : Type} (_ : A) : JS nat unit U :=
  throw (HostThrown tt).

(** ** Callers: chains of fallible steps

    [r.andThen(f1).andThen(f2)...], the way a caller threads a Result
    through a pipeline; the steps are run in order, each on what the one
    before returned. *)
Fixpoint andThen_chain {World Host T E : Type}
    (steps : list (T -> JS World Host (Result T E))) (r : Result T E) :
    JS World Host (Result T E) :=
  match steps with
  | [] => ret r
  | fn :: steps' => r' <- andThen r fn ;; andThen_chain steps' r'
  end.

(** ** A host value whose string conversion throws

    A primitive is a string or a Symbol; a template literal converts a
    string to itself and throws a [TypeError] on a Symbol. *)
Inductive Primitive : Type :=
| PString (s : string)
| PSymbol (description : string).

#[export] Instance Stringify_Primitive {World : Type} :
  Stringify World string Primitive :=
  fun p =>
    match p with
    | PString s => ret s
    | PSymbol _ =>
        throw (HostThrown "TypeError: Cannot convert a Symbol value to a string")
    end.

(** * Properties *)

(** ** Computations *)

Lemma bind_ret_l {World Host A B : Type} (a : A) (k : A -> JS World Host B)
    (w : World) :
  (x <- ret a ;; k x) w = k a w.
Proof. reflexivity. Qed.

Lemma bind_returns {World Host A B : Type} (c : JS World Host A)
    (k : A -> JS World Host B) (w w' : World) (a : A) :
  c w = (Return a, w') -> (x <- c ;; k x) w = k a w'.
Proof. intros Hc. unfold bind. now rewrite Hc. Qed.

Lemma bind_throws {World Host A B : Type} (c : JS World Host A)
    (k : A -> JS World Host B) (w w' : World) (t : Thrown Host) :
  c w = (Throw t, w') -> (x <- c ;; k x) w = (Throw t, w').
Proof. intros Hc. unfold bind. now rewrite Hc. Qed.

Lemma raises_bind_ret {World Host A B : Type} (c : JS World Host A)
    (f : A -> B) (w : World) :
  raises (x <- c ;; ret (f x)) w <-> raises c w.
Proof.
  unfold raises, bind, ret.
  destruct (c w) as [[a | t] w1]; split; intros (t' & w' & H);
    try discriminate; eauto.
Qed.

Lemma throws_bind_ret {World Host A B : Type} (c : JS World Host A)
    (f : A -> B) (w w' : World) (t : Thrown Host) :
  (x <- c ;; ret (f x)) w = (Throw t, w') <-> c w = (Throw t, w').
Proof.
  unfold bind, ret.
  destruct (c w) as [[a | t1] w1]; split; intros H;
    try discriminate H; injection H as -> ->; reflexivity.
Qed.

Lemma raises_bind_throw {World Host A B : Type} (c : JS World Host A)
    (k : A -> Thrown Host) (w : World) :
  raises (x <- c ;; throw (A := B) (k x)) w.
Proof.
  unfold raises, bind, throw.
  destruct (c w) as [[a | t] w1]; eauto.
Qed.

Lemma ret_not_raises {World Host A : Type} (a : A) (w : World) :
  ~ raises (ret (World := World) (Host := Host) a) w.
Proof. intros (t & w' & H). discriminate. Qed.

Lemma throw_raises {World Host A : Type} (t : Thrown Host) (w : World) :
  raises (throw (World := World) (A := A) t) w.
Proof. now exists t, w. Qed.

(** ** Strings *)






(** ** Mismatched extraction *)




(** ** Failure paths *)

(** C2, as the code has it: [unwrap] on [err(e)] throws for every [e],
    [unwrapErr] on [ok(v)] throws for every [v], and these are the only
    failure paths of the two classes themselves: a method call throws
    exactly when it is one of these two mismatched extractions, or when the
    function it hands the field to throws (no method has a [throw] of its
    own besides the two); and [map], [mapErr], [andThen] and [match] pass
    on what that function throws: any other call than the two mismatched
    extractions throws [t] and leaves the host in [w'] exactly when the
    function it calls threw [t] and left [w']. *)
Theorem failure_paths
    {World Host T E : Type} {S : Stringify World Host E} {TH : Thenable T E} :
  (forall (e : E) (w : World), raises (unwrap (T := T) (err e)) w)
  /\ (forall (v : T) (w : World),
        raises (unwrapErr (Host := Host) (E := E) (ok v)) w)
  /\ (forall (A : Type) (r : Result T E) (c : Call World Host T E A)
             (w : World),
        raises (invoke r c) w
        <-> mismatched r c = true \/ callback_raises r c w)
  /\ (forall (A : Type) (r : Result T E) (c : Call World Host T E A)
             (w w' : World) (t : Thrown Host),
        mismatched r c = false ->
        (invoke r c w = (Throw t, w') <-> callback_throws r c w t w')).
Proof.
  split; [| split; [| split]].
  - intros e w. cbn [unwrap err]. unfold Err.unwrap.
    apply raises_bind_throw.
  - intros v w. apply throw_raises.
  - intros A r c w.
    destruct r as [value | error], c; cbn -[raises]; 
      unfold Ok.isOk, Ok.isErr, Ok.unwrap, Ok.unwrapOr, Ok.unwrapErr,
             Ok.map, Ok.mapErr, Ok.andThen, Ok.match_, Ok.asPromise,
             Err.isOk, Err.isErr, Err.unwrap, Err.unwrapOr, Err.unwrapErr,
             Err.map, Err.mapErr, Err.andThen, Err.match_, Err.asPromise;
      match goal with
      | |- raises (ret _) _ <-> _ =>
          split; [intros H; now apply ret_not_raises in H
                 | intros [H | H]; [discriminate H | contradiction H]]
      | |- raises (throw _) _ <-> _ =>
          split; [intros _; left; reflexivity | intros _; apply throw_raises]
      | |- raises (_ <- _ ;; throw _) _ <-> _ =>
          split; [intros _; left; reflexivity
                 | intros _; apply raises_bind_throw]
      | |- raises (_ <- _ ;; ret (?f _)) _ <-> _ =>
          rewrite (raises_bind_ret _ f);
          split; [intros H; right; exact H
                 | intros [H | H]; [discriminate H | exact H]]
      | |- raises _ _ <-> _ =>
          split; [intros H; right; exact H
                 | intros [H | H]; [discriminate H | exact H]]
      end.
  - intros A r c w w' t Hown.
    destruct r as [value | error], c; cbn in Hown; try discriminate Hown;
      cbn [invoke callback_throws isOk isErr unwrap unwrapOr unwrapErr
           map mapErr andThen match_ asPromise];
      unfold Ok.isOk, Ok.isErr, Ok.unwrap, Ok.unwrapOr,
             Ok.map, Ok.mapErr, Ok.andThen, Ok.match_, Ok.asPromise,
             Err.isOk, Err.isErr, Err.unwrapOr, Err.unwrapErr,
             Err.map, Err.mapErr, Err.andThen, Err.match_, Err.asPromise;
      try (split; intros H; [discriminate H | contradiction H]);
      try apply throws_bind_ret;
      reflexivity.
Qed.

Lemma failure_paths_witness :
  mismatched (ok (E := string) 5) (CallMap (always_throws (U := nat))) = false
  /\ callback_throws (ok (E := string) 5) (CallMap (always_throws (U := nat)))
                     0 (HostThrown tt) 0
  /\ invoke (ok (E := string) 5) (CallMap (always_throws (U := nat))) 0
     = (Throw (HostThrown tt), 0).
Proof.
  split; [reflexivity |]. split; [reflexivity |].
  apply (proj2 (proj2 (proj2
           (failure_paths (World := nat) (Host := unit) (T := nat)
                          (E := string))))
           _ (ok 5) (CallMap (always_throws (U := nat))) 0 0 (HostThrown tt)).
  - reflexivity.
  - reflexivity.
Defined.

(** C2 as it is worded fails: [ok(5).map(fn)] is none of the two
    mismatched extractions, and it throws when [fn] throws. *)
Lemma map_throws_what_fn_throws :
  mismatched (ok (E := string) 5) (CallMap (always_throws (U := nat))) = false
  /\ raises (invoke (ok (E := string) 5) (CallMap (always_throws (U := nat))))
            0.
Proof.
  split; [reflexivity |].
  exists (HostThrown tt), 0. reflexivity.
Qed.

(** ** Promises *)

(** C3: [Result.fromPromise] mirrors the settlement of its input and never
    rejects: from a promise fulfilled with [v] it gives one fulfilled with
    [ok(v)], from a promise rejected with [e] one fulfilled with [err(e)],
    and whatever the input, the promise it gives is not rejected, and is
    pending exactly when the input is. *)
Theorem fromPromise_mirrors_settlement {World Host T R : Type} (w : World) :
  (forall v : T,
      returns (Result.fromPromise (World := World) (Host := Host) (R := R)
                 (Fulfilled v)) w (Fulfilled (ok v)))
  /\ (forall e : R,
      returns (Result.fromPromise (World := World) (Host := Host) (T := T)
                 (Rejected e)) w (Fulfilled (err e)))
  /\ (forall p : Promise T R,
      exists q,
        returns (Result.fromPromise (World := World) (Host := Host) p) w q
        /\ (forall r, q <> Rejected r)
        /\ (q = Pending <-> p = Pending)).
Proof.
  split; [| split].
  - reflexivity.
  - reflexivity.
  - intros [| v | e]; eexists; (split; [reflexivity |]);
      (split; [intros r H; discriminate H |]);
      split; intros H; (reflexivity || discriminate H).
Qed.

(** C4, as the code has it: [asPromise] on [ok(v)] gives
    [Promise.resolve(v)], which is a promise fulfilled with [v] when [v] is
    no thenable, and the promise that resolving with [v] gives when it is
    one ([v] itself when it is a promise object, a promise that follows it
    otherwise); on [err(e)] it gives a promise rejected with [e]; and
    [Result.fromPromise(r.asPromise())] is fulfilled with a Result equal to
    [r] for every [r] whose field is no thenable. *)
Theorem asPromise_fromPromise_roundtrip
    {World Host T E : Type} {TH : Thenable T E} (w : World) :
  (forall (v : T),
      as_promise v = None ->
      returns (asPromise (World := World) (Host := Host) (ok v)) w
              (Fulfilled v))
  /\ (forall (v : T) (p : Promise T E),
      as_promise v = Some p ->
      returns (asPromise (World := World) (Host := Host) (ok v)) w p)
  /\ (forall (e : E),
      returns (asPromise (World := World) (Host := Host) (err e)) w
              (Rejected e))
  /\ (forall (r : Result T E),
      plain_payload r = true ->
      returns (p <- asPromise (World := World) (Host := Host) r ;;
               Result.fromPromise p) w (Fulfilled r)).
Proof.
  split; [| split; [| split]].
  - intros v Hv. unfold returns. cbn. unfold Ok.asPromise, Promise_resolve.
    now rewrite Hv.
  - intros v p Hv. unfold returns. cbn. unfold Ok.asPromise, Promise_resolve.
    now rewrite Hv.
  - intros e. reflexivity.
  - intros [v | e] Hr; unfold returns; cbn in *.
    + unfold Ok.asPromise, Promise_resolve.
      destruct (as_promise v); [discriminate Hr | reflexivity].
    + reflexivity.
Qed.

Lemma asPromise_fromPromise_roundtrip_witness :
  plain_payload (E := string) (ok "v") = true
  /\ returns (p <- asPromise (World := unit) (Host := unit)
                     (ok (E := string) "v") ;;
              Result.fromPromise p) tt (Fulfilled (ok "v")).
Proof.
  split; [reflexivity |].
  apply (proj2 (proj2 (proj2
           (asPromise_fromPromise_roundtrip
              (World := unit) (Host := unit) (T := string) (E := string) tt)))).
  reflexivity.
Defined.

(** C4 as it is worded fails on a Success whose payload is a promise:
    [ok(Promise.reject("boom")).asPromise()] is that rejected promise, and
    [Result.fromPromise] of it is fulfilled with [err("boom")], not with
    the Result it came from. *)
Lemma asPromise_fromPromise_promise_payload :
  let r : Result JsVal JsVal := ok (JsPromise (Rejected (JsString "boom"))) in
  (p <- asPromise (World := unit) (Host := unit) r ;; Result.fromPromise p) tt
    = (Return (Fulfilled (err (JsString "boom"))), tt)
  /\ ~ returns (p <- asPromise (World := unit) (Host := unit) r ;;
                Result.fromPromise p) tt (Fulfilled r).
Proof.
  split; [reflexivity |].
  intros H. cbv in H. discriminate H.
Qed.

(** ** Transformations *)

(** C5: [ok(v).map(fn)] is [ok(fn(v))]: it runs [fn] on [v] and wraps
    what comes back, so where [fn] run on [v] returns [u], the call returns
    [Ok u] (and [fn] has been called once, with [v]); [err(e).map(fn)]
    returns [err(e)] for every [fn], which it does not call: the state of
    the host and the log of calls stay as they were. *)
Theorem map_spec {World Host T E U : Type} :
  (forall (v : T) (fn : T -> JS World Host U) (w : World),
      map (E := E) (ok v) fn w = (u <- fn v ;; ret (ok u)) w)
  /\ (forall (v : T) (fn : T -> JS World Host U) (w w' : World) (u : U),
      fn v w = (Return u, w') ->
      map (E := E) (ok v) fn w = (Return (ok u), w'))
  /\ (forall (v : T) (fn : T -> JS World Host U) (w : World) (log : list T),
      snd (snd (map (E := E) (ok v) (spy id fn) (w, log))) = (log ++ [v])%list)
  /\ (forall (e : E) (fn : T -> JS World Host U) (w : World),
      returns (map (err e) fn) w (err e))
  /\ (forall (e : E) (fn : T -> JS World Host U) (w : World) (log : list T),
      returns (map (err e) (spy id fn)) (w, log) (err e)).
Proof.
  split; [| split; [| split; [| split]]].
  - reflexivity.
  - intros v fn w w' u Hfn. cbn [map ok]. unfold Ok.map.
    now rewrite (bind_returns _ _ _ Hfn).
  - intros v fn w log. cbn [map ok]. unfold Ok.map, bind, spy. cbn [fst snd].
    now destruct (fn v w) as [[u | t] w'].
  - reflexivity.
  - reflexivity.
Qed.

Lemma map_spec_witness :
  counting_succ 5 0 = (Return 6, 1)
  /\ map (E := string) (ok 5) counting_succ 0 = (Return (ok 6), 1).
Proof.
  split; [reflexivity |].
  apply (proj1 (proj2 (map_spec (World := nat) (Host := unit) (T := nat)
                                (E := string) (U := nat)))).
  reflexivity.
Defined.

(** C6: [err(e).mapErr(fn)] is [err(fn(e))]: it runs [fn] on [e] and
    wraps what comes back, so where [fn] run on [e] returns [f], the call
    returns [Err f] (and [fn] has been called once, with [e]);
    [ok(v).mapErr(fn)] returns [ok(v)] for every [fn], which it does not
    call. *)
Theorem mapErr_spec {World Host T E F : Type} :
  (forall (e : E) (fn : E -> JS World Host F) (w : World),
      mapErr (T := T) (err e) fn w = (f <- fn e ;; ret (err f)) w)
  /\
  (forall (e : E) (fn : E -> JS World Host F) (w w' : World) (f : F),
      fn e w = (Return f, w') ->
      mapErr (T := T) (err e) fn w = (Return (err f), w'))
  /\ (forall (e : E) (fn : E -> JS World Host F) (w : World) (log : list E),
      snd (snd (mapErr (T := T) (err e) (spy id fn) (w, log)))
        = (log ++ [e])%list)
  /\ (forall (v : T) (fn : E -> JS World Host F) (w : World),
      returns (mapErr (ok v) fn) w (ok v))
  /\ (forall (v : T) (fn : E -> JS World Host F) (w : World) (log : list E),
      returns (mapErr (ok v) (spy id fn)) (w, log) (ok v)).
Proof.
  split; [| split; [| split; [| split]]].
  - reflexivity.
  - intros e fn w w' f Hfn. cbn [mapErr err]. unfold Err.mapErr.
    now rewrite (bind_returns _ _ _ Hfn).
  - intros e fn w log. cbn [mapErr err]. unfold Err.mapErr, bind, spy.
    cbn [fst snd]. now destruct (fn e w) as [[f | t] w'].
  - reflexivity.
  - reflexivity.
Qed.

Lemma mapErr_spec_witness :
  counting_succ 5 0 = (Return 6, 1)
  /\ mapErr (T := string) (err 5) counting_succ 0 = (Return (err 6), 1).
Proof.
  split; [reflexivity |].
  apply (proj1 (proj2 (mapErr_spec (World := nat) (Host := unit)
                                   (T := string) (E := nat) (F := nat)))).
  reflexivity.
Defined.

(** C7: [ok(v).andThen(fn)] is [fn(v)], the Result of [fn] handed on as it
    is (with whatever [fn] does to the host, and one call of [fn], with
    [v]); [err(e).andThen(fn)] returns [err(e)] for every [fn], which it
    does not call. *)
Theorem andThen_spec {World Host T E U : Type} :
  (forall (v : T) (fn : T -> JS World Host (Result U E)) (w : World),
      andThen (ok v) fn w = fn v w)
  /\ (forall (v : T) (fn : T -> JS World Host (Result U E)) (w : World)
             (log : list T),
      snd (snd (andThen (ok v) (spy id fn) (w, log))) = (log ++ [v])%list)
  /\ (forall (e : E) (fn : T -> JS World Host (Result U E)) (w : World),
      returns (andThen (err e) fn) w (err e))
  /\ (forall (e : E) (fn : T -> JS World Host (Result U E)) (w : World)
             (log : list T),
      returns (andThen (err e) (spy id fn)) (w, log) (err e)).
Proof.
  split; [| split; [| split]].
  - reflexivity.
  - intros v fn w log. cbn [andThen ok]. unfold Ok.andThen, spy.
    cbn [fst snd]. now destruct (fn v w) as [c w'].
  - reflexivity.
  - reflexivity.
Qed.

(** C10: [andThen] is associative:
    [r.andThen(f).andThen(g)] and [r.andThen(x => f(x).andThen(g))] return
    or throw the same and leave the host in the same state. *)
Theorem andThen_assoc {World Host T E U V : Type}
    (r : Result T E) (f : T -> JS World Host (Result U E))
    (g : U -> JS World Host (Result V E)) (w : World) :
  (r1 <- andThen r f ;; andThen r1 g) w
    = andThen r (fun x => r1 <- f x ;; andThen r1 g) w.
Proof.
  destruct r as [value | error]; reflexivity.
Qed.

(** ** Dispatch *)

(** C8: [match] calls exactly one handler, exactly once: on a Success the
    handler [ok] with the payload, on a Failure the handler [err] with the
    error.  It returns (or throws) what that handler does, and the log of
    the calls of the two handlers grows by that one call and no other. *)
Theorem match_exactly_one_handler {World Host T E U : Type}
    (patterns : Patterns.t World Host T E U) (w : World) :
  (forall v : T, match_ (ok v) patterns w = Patterns.ok patterns v w)
  /\ (forall e : E, match_ (err e) patterns w = Patterns.err patterns e w)
  /\ (forall (v : T) (log : list (T + E)),
      match_ (ok v) (spy_patterns patterns) (w, log)
        = (fst (Patterns.ok patterns v w),
           (snd (Patterns.ok patterns v w), (log ++ [inl v])%list)))
  /\ (forall (e : E) (log : list (T + E)),
      match_ (err e) (spy_patterns patterns) (w, log)
        = (fst (Patterns.err patterns e w),
           (snd (Patterns.err patterns e w), (log ++ [inr e])%list))).
Proof.
  split; [| split; [| split]].
  - reflexivity.
  - reflexivity.
  - intros v log. cbn. unfold Ok.match_, spy. cbn.
    now destruct (Patterns.ok patterns v w).
  - intros e log. cbn. unfold Err.match_, spy. cbn.
    now destruct (Patterns.err patterns e w).
Qed.

(** ** Extraction *)

(** C9: construction and matching extraction agree: [ok(v).unwrap()] and
    [ok(v).unwrapOr(d)] return [v], [err(e).unwrapErr()] returns [e] and
    [err(e).unwrapOr(d)] returns [d]; [unwrapOr] throws on no Result. *)
Theorem construction_extraction_agree
    {World Host T E : Type} {S : Stringify World Host E} (w : World) :
  (forall v : T, returns (unwrap (ok v)) w v)
  /\ (forall v d : T,
        returns (unwrapOr (Host := Host) (E := E) (ok v) d) w v)
  /\ (forall e : E,
        returns (unwrapErr (Host := Host) (T := T) (err e)) w e)
  /\ (forall (e : E) (d : T), returns (unwrapOr (Host := Host) (err e) d) w d)
  /\ (forall (r : Result T E) (d : T),
        ~ raises (unwrapOr (Host := Host) r d) w).
Proof.
  split; [| split; [| split; [| split]]]; try reflexivity.
  intros [v | e] d; apply ret_not_raises.
Qed.

(** ** The scenarios of the contract, run *)

Example scenario_A :
  (r <- map (E := string) (ok 5) (fun x => ret (x + 1)) ;; unwrap r) tt
    = (Return (Host := unit) 6, tt).
Proof. reflexivity. Qed.

Example scenario_B :
  (r <- map (T := nat) (err "bad") (fun x => ret (x + 1)) ;; unwrapErr r) tt
    = (Return (Host := unit) "bad", tt).
Proof. reflexivity. Qed.

Example scenario_C :
  (r <- andThen (E := string) (ok 5)
          (fun x => ret (if Nat.ltb 0 x then ok (x * 2) else err "neg")) ;;
   unwrap r) tt
    = (Return (Host := unit) 10, tt).
Proof. reflexivity. Qed.

Example scenario_D :
  match_ (E := string) (ok "3")
         (Patterns.make (fun x => ret ("v=" ++ x)) (fun e => ret ("e=" ++ e)))
         tt
    = (Return (Host := unit) "v=3", tt).
Proof. reflexivity. Qed.

Example scenario_E :
  (p <- Result.fromPromise (T := nat) (Rejected "boom") ;;
   match p with
   | Fulfilled r => unwrapErr r
   | _ => ret "not fulfilled"
   end) tt
    = (Return (Host := unit) "boom", tt).
Proof. reflexivity. Qed.

(** [unwrap] on a Failure, run: the error is in the message. *)
Example unwrap_err_bad :
  unwrap (T := nat) (err "bad") tt
    = (Throw (Host := unit)
         (ErrorObject "Called unwrap on an Err value: bad"), tt).
Proof. reflexivity. Qed.

(** A function that throws is not called by [map] on a Failure; on a
    Success what it throws passes through [map], and the call it counted
    stays counted. *)
Example map_always_throws :
  map (err "bad") (always_throws (A := nat) (U := nat)) 0
    = (Return (err "bad"), 0)
  /\ map (E := string) (ok 5) (always_throws (U := nat)) 0
    = (Throw (HostThrown tt), 0)
  /\ (r <- map (E := string) (ok 5) counting_succ ;;
      map r always_throws) 0
    = (Throw (A := Result nat string) (HostThrown tt), 1).
Proof. repeat split. Qed.

(** The tag tells the two classes apart, as [isOk] and [isErr] do. *)
Example tag_tells_variant {T E : Type} (r : Result T E) (w : unit) :
  isOk (Host := unit) r w
    = (Return (if String.eqb (_tag r) "Ok" then true else false), w)
  /\ isErr (Host := unit) r w
    = (Return (if String.eqb (_tag r) "Err" then true else false), w).
Proof. destruct r; split; reflexivity. Qed.

(** * Further properties of the two classes *)

(** ** Inspection *)

(** X1: [isOk] and [isErr] answer on every Result without throwing and
    without touching the host, their answers are each other's negation,
    and [isOk] answers [true] exactly on the objects whose [_tag] is
    ["Ok"]. *)
Theorem isOk_isErr_complement {World Host T E : Type}
    (r : Result T E) (w : World) :
  exists b : bool,
    returns (isOk (Host := Host) r) w b
    /\ returns (isErr (Host := Host) r) w (negb b)
    /\ (b = true <-> _tag r = "Ok")
    /\ (b = false <-> _tag r = "Err").
Proof.
  destruct r as [value | error].
  - exists true. repeat split; intros H; (reflexivity || discriminate H).
  - exists false. repeat split; intros H; (reflexivity || discriminate H).
Qed.

(** X2: the guards are sound and complete for the extractions: [unwrap]
    throws on exactly the Results for which [isOk] answers [false], and
    [unwrapErr] on exactly those for which [isErr] answers [false]. *)
Theorem guards_decide_extraction
    {World Host T E : Type} {S : Stringify World Host E}
    (r : Result T E) (w : World) :
  (returns (isOk (Host := Host) r) w false <-> raises (unwrap r) w)
  /\ (returns (isErr (Host := Host) r) w false
      <-> raises (unwrapErr (Host := Host) r) w).
Proof.
  destruct r as [value | error]; split; split; intros H.
  - discriminate H.
  - now apply ret_not_raises in H.
  - apply throw_raises.
  - reflexivity.
  - cbn [unwrap]. unfold Err.unwrap. apply raises_bind_throw.
  - reflexivity.
  - discriminate H.
  - now apply ret_not_raises in H.
Qed.

(** X3: [unwrapOr] is [unwrap] made total: where [unwrap] returns a value,
    [unwrapOr] returns that value whatever the default, and where
    [unwrap] throws, [unwrapOr] returns the default, without running the
    string conversion that [unwrap] runs on the error. *)
Theorem unwrapOr_totalises_unwrap
    {World Host T E : Type} {S : Stringify World Host E}
    (r : Result T E) (d : T) (w : World) :
  (forall (v : T) (w' : World),
      unwrap r w = (Return v, w') -> returns (unwrapOr (Host := Host) r d) w v)
  /\ (raises (unwrap r) w -> returns (unwrapOr (Host := Host) r d) w d).
Proof.
  destruct r as [value | error]; split.
  - intros v w' H. cbn in H. injection H as <- _. reflexivity.
  - intros H. now apply ret_not_raises in H.
  - intros v w' H. cbn [unwrap] in H. unfold Err.unwrap, bind in H.
    destruct (ToString error w) as [[s | t] w1]; discriminate H.
  - intros _. reflexivity.
Qed.

Lemma unwrapOr_totalises_unwrap_witness :
  unwrap (World := unit) (Host := unit) (E := string) (ok 5) tt
    = (Return 5, tt)
  /\ returns (unwrapOr (World := unit) (Host := unit) (E := string) (ok 5) 7)
             tt 5.
Proof.
  split; [reflexivity |].
  apply (proj1 (unwrapOr_totalises_unwrap
                  (World := unit) (Host := unit) (ok (E := string) 5) 7 tt)
               5 tt).
  reflexivity.
Defined.

(** X4: when the string conversion of the error throws (as that of a Symbol
    does), [unwrap] on the Failure throws what the conversion threw, not
    the [Error] with the description, and leaves the host as the
    conversion left it. *)
Theorem unwrap_passes_on_conversion_failure
    {World Host T E : Type} {S : Stringify World Host E}
    (e : E) (w w' : World) (t : Thrown Host) :
  ToString e w = (Throw t, w') ->
  unwrap (T := T) (err e) w = (Throw t, w').
Proof.
  intros Hs. cbn [unwrap err]. unfold Err.unwrap.
  now rewrite (bind_throws _ _ _ Hs).
Qed.

Lemma unwrap_passes_on_conversion_failure_witness :
  ToString (World := unit) (PSymbol "id") tt
    = (Throw (HostThrown
                "TypeError: Cannot convert a Symbol value to a string"), tt)
  /\ unwrap (T := nat) (err (PSymbol "id")) tt
    = (Throw (HostThrown
                "TypeError: Cannot convert a Symbol value to a string"), tt).
Proof.
  split; [reflexivity |].
  apply (unwrap_passes_on_conversion_failure (T := nat) (PSymbol "id") tt).
  reflexivity.
Defined.

(** ** How the transformations compose *)

(** X5: mapping the identity changes nothing: [r.map(x => x)] returns a
    Result equal to [r], and so does [r.mapErr(e => e)]. *)
Theorem map_identity {World Host T E : Type} (r : Result T E) (w : World) :
  returns (map (Host := Host) r (fun x => ret x)) w r
  /\ returns (mapErr (Host := Host) r (fun e => ret e)) w r.
Proof. destruct r as [value | error]; split; reflexivity. Qed.

(** X6: two [map]s in a row are one [map] with the two functions in a row:
    [r.map(f).map(g)] and [r.map(x => g(f(x)))] end the same way and leave
    the host in the same state, also when [f] or [g] throws; on a Failure
    neither calls anything. *)
Theorem map_compose {World Host T E U V : Type}
    (r : Result T E) (f : T -> JS World Host U) (g : U -> JS World Host V)
    (w : World) :
  (r1 <- map r f ;; map r1 g) w = map r (fun x => y <- f x ;; g y) w.
Proof.
  destruct r as [value | error]; [| reflexivity].
  cbn [map]. unfold Ok.map, bind, ret.
  destruct (f value w) as [[u | t] w1]; reflexivity.
Qed.

(** X7: the same for [mapErr]: [r.mapErr(f).mapErr(g)] and
    [r.mapErr(e => g(f(e)))] end the same way and leave the host in the
    same state; on a Success neither calls anything. *)
Theorem mapErr_compose {World Host T E F G : Type}
    (r : Result T E) (f : E -> JS World Host F) (g : F -> JS World Host G)
    (w : World) :
  (r1 <- mapErr r f ;; mapErr r1 g) w = mapErr r (fun x => y <- f x ;; g y) w.
Proof.
  destruct r as [value | error]; [reflexivity |].
  cbn [mapErr]. unfold Err.mapErr, bind, ret.
  destruct (f error w) as [[u | t] w1]; reflexivity.
Qed.

(** X8: [map] and [mapErr] act on different variants, so their order does
    not matter: [r.map(f).mapErr(g)] and [r.mapErr(g).map(f)] end the same
    way and leave the host in the same state (only one of [f] and [g] is
    ever called). *)
Theorem map_mapErr_commute {World Host T E U F : Type}
    (r : Result T E) (f : T -> JS World Host U) (g : E -> JS World Host F)
    (w : World) :
  (r1 <- map r f ;; mapErr r1 g) w = (r1 <- mapErr r g ;; map r1 f) w.
Proof.
  destruct r as [value | error];
    cbv [bind ret map mapErr Ok.map Ok.mapErr Err.map Err.mapErr].
  - destruct (f value w) as [[u | t] w1]; reflexivity.
  - destruct (g error w) as [[u | t] w1]; reflexivity.
Qed.

(** X9: the constructor [ok] is a right identity of [andThen]:
    [r.andThen(x => ok(x))] returns a Result equal to [r]. *)
Theorem andThen_ok_right_identity {World Host T E : Type}
    (r : Result T E) (w : World) :
  returns (andThen (Host := Host) r (fun x => ret (ok x))) w r.
Proof. destruct r as [value | error]; reflexivity. Qed.

(** X10: [map] is [andThen] with the result wrapped by [ok]:
    [r.map(f)] and [r.andThen(x => ok(f(x)))] end the same way and leave
    the host in the same state. *)
Theorem map_as_andThen {World Host T E U : Type}
    (r : Result T E) (f : T -> JS World Host U) (w : World) :
  map r f w = andThen r (fun x => u <- f x ;; ret (ok u)) w.
Proof. destruct r as [value | error]; reflexivity. Qed.

(** X11: [match] subsumes the other methods: with the two constructors as
    handlers it rebuilds the Result it is called on, and [unwrapOr],
    [isOk], [map], [mapErr] and [andThen] are each a [match] with the
    handlers their two classes implement. *)
Theorem match_subsumes_methods {World Host T E : Type} (r : Result T E)
    (w : World) :
  returns (match_ (Host := Host) r
             (Patterns.make (fun v => ret (ok v)) (fun e => ret (err e)))) w r
  /\ (forall d : T,
        unwrapOr r d w
        = match_ (Host := Host) r
            (Patterns.make (fun v => ret v) (fun _ => ret d)) w)
  /\ isOk r w
     = match_ (Host := Host) r
         (Patterns.make (fun _ => ret true) (fun _ => ret false)) w
  /\ (forall (U : Type) (fn : T -> JS World Host U),
        map r fn w
        = match_ r (Patterns.make (fun v => u <- fn v ;; ret (ok u))
                                  (fun e => ret (err e))) w)
  /\ (forall (F : Type) (fn : E -> JS World Host F),
        mapErr r fn w
        = match_ r (Patterns.make (fun v => ret (ok v))
                                  (fun e => f <- fn e ;; ret (err f))) w)
  /\ (forall (U : Type) (fn : T -> JS World Host (Result U E)),
        andThen r fn w
        = match_ r (Patterns.make fn (fun e => ret (err e))) w).
Proof.
  destruct r as [value | error]; repeat split.
Qed.

(** X12: no transformation changes the variant behind the caller's back:
    whenever [map] or [mapErr] returns, the Result it returns is of the
    class of the one it was called on, and [andThen] never returns a
    Success when called on a Failure. *)
Theorem transformations_keep_variant {World Host T E U F : Type} :
  (forall (r : Result T E) (fn : T -> JS World Host U) (w w' : World)
          (r' : Result U E),
      map r fn w = (Return r', w') -> _tag r' = _tag r)
  /\ (forall (r : Result T E) (fn : E -> JS World Host F) (w w' : World)
             (r' : Result T F),
      mapErr r fn w = (Return r', w') -> _tag r' = _tag r)
  /\ (forall (r : Result T E) (fn : T -> JS World Host (Result U E))
             (w w' : World) (r' : Result U E),
      andThen r fn w = (Return r', w') -> _tag r = "Err" -> _tag r' = "Err").
Proof.
  split; [| split].
  - intros [value | error] fn w w' r' H; cbn [map] in H.
    + unfold Ok.map, bind, ret in H.
      destruct (fn value w) as [[u | t] w1]; [| discriminate H].
      injection H as <- _. reflexivity.
    + injection H as <- _. reflexivity.
  - intros [value | error] fn w w' r' H; cbn [mapErr] in H.
    + injection H as <- _. reflexivity.
    + unfold Err.mapErr, bind, ret in H.
      destruct (fn error w) as [[u | t] w1]; [| discriminate H].
      injection H as <- _. reflexivity.
  - intros [value | error] fn w w' r' H Htag; [discriminate Htag |].
    injection H as <- _. reflexivity.
Qed.

Lemma transformations_keep_variant_witness :
  map (E := string) (ok 5) counting_succ 0 = (Return (ok 6), 1)
  /\ _tag (ok (E := string) 6) = _tag (ok (E := string) 5).
Proof.
  split; [reflexivity |].
  apply (proj1 (transformations_keep_variant
                  (World := nat) (Host := unit) (T := nat) (E := string)
                  (U := nat) (F := nat))
               (ok 5) counting_succ 0 1 (ok 6)).
  reflexivity.
Defined.

(** ** Chains of steps *)

Lemma andThen_chain_app {World Host T E : Type}
    (s1 s2 : list (T -> JS World Host (Result T E))) (r : Result T E)
    (w : World) :
  andThen_chain (s1 ++ s2)%list r w
    = (r' <- andThen_chain s1 r ;; andThen_chain s2 r') w.
Proof.
  revert r w. induction s1 as [| fn s1 IH]; intros r w; [reflexivity |].
  cbn [andThen_chain app]. unfold bind at 1 2 3.
  destruct (andThen r fn w) as [[r1 | t] w1]; [| reflexivity].
  rewrite IH. reflexivity.
Qed.

Lemma andThen_chain_err {World Host T E : Type}
    (steps : list (T -> JS World Host (Result T E))) (e : E) (w : World) :
  andThen_chain steps (Err e) w = (Return (Err e), w).
Proof.
  induction steps as [| fn steps IH]; [reflexivity |].
  cbn [andThen_chain andThen]. unfold Err.andThen.
  rewrite bind_ret_l. exact IH.
Qed.

(** X13: a chain of [andThen] steps started on a Failure calls none of its
    steps, however many there are: it returns the Failure it started on
    and leaves the host as it found it; with every step under observation,
    the log of calls stays as it was. *)
Theorem andThen_chain_on_failure {World Host T E : Type}
    (steps : list (T -> JS World Host (Result T E))) (e : E) (w : World)
    (log : list T) :
  returns (andThen_chain steps (err e)) w (err e)
  /\ returns (andThen_chain (List.map (spy id) steps) (err e)) (w, log)
             (err e).
Proof. split; apply andThen_chain_err. Qed.

(** X14: a chain stops at its first failure: once the steps run so far have
    returned a Failure, or one of them has thrown, the steps that follow
    are not called, and the chain ends as those first steps did, with the
    host as they left it. *)
Theorem andThen_chain_stops_at_failure {World Host T E : Type}
    (s1 s2 : list (T -> JS World Host (Result T E))) (r : Result T E)
    (w w' : World) :
  (forall e : E,
      andThen_chain s1 r w = (Return (err e), w') ->
      andThen_chain (s1 ++ s2)%list r w = (Return (err e), w'))
  /\ (forall t : Thrown Host,
      andThen_chain s1 r w = (Throw t, w') ->
      andThen_chain (s1 ++ s2)%list r w = (Throw t, w')).
Proof.
  split.
  - intros e H. rewrite andThen_chain_app.
    rewrite (bind_returns _ _ _ H). apply andThen_chain_err.
  - intros t H. rewrite andThen_chain_app. now rewrite (bind_throws _ _ _ H).
Qed.

Lemma andThen_chain_stops_at_failure_witness :
  andThen_chain
    [fun x => ret (err "neg"); fun x => r <- counting_succ x ;; ret (ok r)]
    (ok 5) 0
    = (Return (err "neg"), 0)
  /\ andThen_chain
       ([fun x => ret (err "neg"); fun x => r <- counting_succ x ;; ret (ok r)]
        ++ [always_throws])%list
       (ok 5) 0
    = (Return (err "neg"), 0).
Proof.
  split; [reflexivity |].
  apply (proj1 (andThen_chain_stops_at_failure
                  [fun x => ret (err "neg");
                   fun x => r <- counting_succ x ;; ret (ok r)]
                  [always_throws] (ok 5) 0 0)).
  reflexivity.
Defined.

(** ** Results and promises *)

Lemma bind_throw_never_returns {World Host A B : Type} (c : JS World Host A)
    (k : A -> Thrown Host) (w w' : World) (b : B) :
  (x <- c ;; throw (k x)) w <> (Return b, w').
Proof.
  unfold bind, throw. destruct (c w) as [[a | t] w1]; discriminate.
Qed.



(** X16: [Result.fromPromise] of a promise made by [Result.fromPromise]
    is never fulfilled with a Failure: the outer Result is a Success that
    holds the inner Result, also when the first promise was rejected. *)
Theorem fromPromise_twice {World Host T R : Type} (w : World) :
  (forall v : T,
      returns (q <- Result.fromPromise (World := World) (Host := Host)
                      (R := R) (Fulfilled v) ;;
               Result.fromPromise q) w (Fulfilled (ok (ok v))))
  /\ (forall e : R,
      returns (q <- Result.fromPromise (World := World) (Host := Host)
                      (T := T) (Rejected e) ;;
               Result.fromPromise q) w (Fulfilled (ok (err e))))
  /\ (forall (p : Promise T R) (q : Promise (Result (Result T R) R) R)
             (r : Result (Result T R) R),
      returns (q' <- Result.fromPromise (World := World) (Host := Host) p ;;
               Result.fromPromise q') w q ->
      q = Fulfilled r -> _tag r = "Ok").
Proof.
  split; [| split]; try reflexivity.
  intros [| v | e] q r Hq ->; cbv in Hq; inversion Hq; reflexivity.
Qed.

Lemma fromPromise_twice_witness :
  _tag (ok (T := Result nat string) (E := string) (err "boom")) = "Ok".
Proof.
  apply (proj2 (proj2 (fromPromise_twice
                         (World := unit) (Host := unit) (T := nat)
                         (R := string) tt))
               (Rejected "boom") (Fulfilled (ok (err "boom")))
               (ok (err "boom")));
    reflexivity.
Defined.

(** X17: [asPromise] settles the way the extractions end: for a Result
    whose field is no thenable (no promise, nor any other object with a
    [then] method), the promise is fulfilled with [v] exactly when
    [unwrap] returns [v], and rejected with [e] exactly when [unwrapErr]
    returns [e]. *)
Theorem asPromise_settles_as_extraction
    {World Host T E : Type} {S : Stringify World Host E} {TH : Thenable T E}
    (r : Result T E) (w : World) :
  plain_payload r = true ->
  (forall v : T,
      returns (asPromise (Host := Host) r) w (Fulfilled v)
      <-> returns (unwrap r) w v)
  /\ (forall e : E,
      returns (asPromise (World := World) (Host := Host) r) w (Rejected e)
      <-> returns (unwrapErr (Host := Host) r) w e).
Proof.
  intros Hplain. destruct r as [value | error]; unfold returns;
    cbn [asPromise unwrap unwrapErr plain_payload] in *.
  - unfold Ok.asPromise, Promise_resolve, Ok.unwrap, Ok.unwrapErr, ret, throw.
    destruct (as_promise value); [discriminate Hplain |].
    split; intros x; split; intros H; try discriminate H;
      injection H as ->; reflexivity.
  - unfold Err.asPromise, Promise_reject, Err.unwrap, Err.unwrapErr, ret.
    split; intros x; split; intros H; try discriminate H.
    + now apply bind_throw_never_returns in H.
    + injection H as ->; reflexivity.
    + injection H as ->; reflexivity.
Qed.

Lemma asPromise_settles_as_extraction_witness :
  plain_payload (E := string) (ok "v") = true
  /\ (returns (asPromise (World := unit) (Host := unit)
                 (ok (E := string) "v")) tt (Fulfilled "v")
      <-> returns (unwrap (World := unit) (Host := unit)
                     (ok (E := string) "v")) tt "v").
Proof.
  split; [reflexivity |].
  assert (Hplain : plain_payload (E := string) (ok "v") = true)
    by reflexivity.
  apply (proj1 (asPromise_settles_as_extraction
                  (World := unit) (Host := unit) (ok (E := string) "v") tt
                  Hplain)).
Defined.


